(** * Safety metrics processor

    A shallow embedding of [src/safety-metrics/process_safety_metrics.py]:
    the ingestion of raw LAPD incident records ([process_crime_data]), the
    gridded scoring loop ([calculate_safety_metrics]) and the upload of the
    resulting rows ([upload_to_supabase]).

    Numbers.  The script computes on binary64 floats.  Every float is a
    rational, so parsed inputs (timestamps, coordinates) and everything the
    script derives from them with [+], [-], [*], [/] and comparisons is
    modelled in [Q], exactly, without rounding.  The recency weight is an
    exponential, so weights and the rates built from them live in [R].
    A [NaN]/[NaT] cell of a DataFrame column is [None]. *)

From Stdlib Require Import List String Ascii ZArith QArith Qround Qreals Reals Lia Bool.
From Stdlib Require Lqa Lra.
Import ListNotations.

Open Scope string_scope.
Open Scope list_scope.
Open Scope Q_scope.

Ltac qlra := Lqa.lra.
Ltac rlra := Lra.lra.

(** ** Small pandas vocabulary *)

(** [Series.between(lo, hi)], inclusive on both ends (the pandas default). *)
Definition between (x lo hi : Q) : bool := Qle_bool lo x && Qle_bool x hi.

(** [between] on a float column: a NaN cell compares false. *)
Definition between_nan (x : option Q) (lo hi : Q) : bool :=
  match x with
  | Some v => between v lo hi
  | None => false
  end.

Definition isna {A : Type} (o : option A) : bool :=
  match o with
  | None => true
  | Some _ => false
  end.

Definition Qlt_bool (x y : Q) : bool := negb (Qle_bool y x).

(** [mask.sum()] of a boolean column. *)
Definition count {A : Type} (p : A -> bool) (l : list A) : nat :=
  List.length (filter p l).

(** [len(df) == 0]. *)
Definition is_empty {A : Type} (l : list A) : bool :=
  match l with
  | [] => true
  | _ :: _ => false
  end.

(** ** Records *)

(** A raw incident as the columns of [pd.DataFrame(crime_data)] read it:
    [raw_date_occ] is what [pd.to_datetime(..., errors='coerce')] yields
    (seconds on the naive local time line), [raw_lat]/[raw_lon] what
    [pd.to_numeric(..., errors='coerce')] yields. *)
Record RawRecord : Type := {
  raw_date_occ : option Q;
  raw_lat : option Q;
  raw_lon : option Q;
  raw_crm_cd : string
}.

(** A row of the processed DataFrame, with the columns the script adds. *)
Record Crime : Type := {
  date_occ : Q;
  crm_cd : string;
  hour : Z;
  days_ago : Q;
  time_weight : R;
  lat : option Q;
  lon : option Q
}.

(** The three figures [process_crime_data] prints while it filters. *)
Record Counters : Type := {
  invalid_dates : nat;
  future_dates : nat;
  invalid_coords : nat
}.

(** ** process_crime_data *)

(** [df['date_occ'].dt.hour]. *)
Definition hour_of (t : Q) : Z := (Qfloor (t / 3600) mod 24)%Z.

(** [(now - df['date_occ']).dt.total_seconds() / (24 * 3600)]. *)
Definition days_ago_of (now t : Q) : Q := (now - t) / (24 * 3600).

(** [np.exp(-df['days_ago'] * (np.log(2) / 180))]. *)
Definition decay (d : Q) : R := exp (- Q2R d * (ln 2 / 180)).

(** [df['date_occ'] > now]; NaT compares false. *)
Definition is_future (now : Q) (r : RawRecord) : bool :=
  match raw_date_occ r with
  | Some t => Qlt_bool now t
  | None => false
  end.

(** [df['date_occ'].notna() & (df['date_occ'] <= now)]. *)
Definition date_kept (now : Q) (r : RawRecord) : bool :=
  match raw_date_occ r with
  | Some t => Qle_bool t now
  | None => false
  end.

(** The row of a record that passed the date filter, with [hour],
    [days_ago], [time_weight] and the numeric coordinates. *)
Definition with_time_fields (now : Q) (r : RawRecord) : list Crime :=
  match raw_date_occ r with
  | Some t =>
      [ {| date_occ := t;
           crm_cd := raw_crm_cd r;
           hour := hour_of t;
           days_ago := days_ago_of now t;
           time_weight := decay (days_ago_of now t);
           lat := raw_lat r;
           lon := raw_lon r |} ]
  | None => []
  end.

(** The Los Angeles bounding box filter. *)
Definition in_la (c : Crime) : bool :=
  between_nan (lat c) 33.70 34.83 && between_nan (lon c) (-118.67) (-117.65).

Definition process_crime_data (now : Q) (crime_data : list RawRecord)
  : list Crime * Counters :=
  let n_invalid := count (fun r => isna (raw_date_occ r)) crime_data in
  let n_future := count (is_future now) crime_data in
  let dated := flat_map (with_time_fields now) (filter (date_kept now) crime_data) in
  let n_coords := count (fun c => isna (lat c) || isna (lon c)) dated in
  (filter in_la dated,
   {| invalid_dates := n_invalid;
      future_dates := n_future;
      invalid_coords := n_coords |}).

(** ** The metric table *)

Record Config : Type := {
  question : string;
  description : string;
  crime_codes : list string;
  time_filter : option (Z -> bool)
}.

Definition SAFETY_METRICS : list (string * Config) :=
  [ ("night",
     {| question := "Can I go outside after dark?";
        description := "Safety for pedestrians during evening/night hours";
        crime_codes := ["210"; "220"; "230"; "231"; "235"; "236"; "250"; "251";
                        "761"; "762"; "763"; "860"];
        time_filter := Some (fun h => (18 <=? h)%Z || (h <? 6)%Z) |});
    ("vehicle",
     {| question := "Can I park here safely?";
        description := "Risk of vehicle theft and break-ins";
        crime_codes := ["330"; "331"; "410"; "420"; "421"; "330"; "331"; "440";
                        "441"; "442"; "443"; "444"; "445"];
        time_filter := None |});
    ("child",
     {| question := "Are kids safe here?";
        description := "Overall safety concerning crimes that could affect children";
        crime_codes := ["235"; "236"; "627"; "760"; "762"; "922"; "237"; "812";
                        "813"; "814"; "815"];
        time_filter := None |});
    ("transit",
     {| question := "Is it safe to use public transport?";
        description := "Safety at and around transit locations";
        crime_codes := ["210"; "220"; "230"; "231"; "476"; "946"; "761"; "762";
                        "763"; "475"; "352"];
        time_filter := None |});
    ("women",
     {| question := "Would I be harassed here?";
        description := "Assessment of crimes that disproportionately affect women";
        crime_codes := ["121"; "122"; "815"; "820"; "821"; "236"; "626"; "627";
                        "647"; "860"; "921"; "922"];
        time_filter := None |}) ].

(** [Series.isin(codes)]. *)
Definition isin (codes : list string) (c : string) : bool :=
  existsb (String.eqb c) codes.

(** The rows of [df] that count toward a metric: the code filter, then the
    time-of-day filter when the entry has one. *)
Definition crimes_of_type (config : Config) (df : list Crime) : list Crime :=
  let by_code := filter (fun c => isin (crime_codes config) (crm_cd c)) df in
  match time_filter config with
  | Some f => filter (fun c => f (hour c)) by_code
  | None => by_code
  end.

(** ** The grid *)

(** [np.arange(start, stop, step)]: [ceil((stop - start) / step)] values
    [start + i * step]. *)
Definition arange (start stop step : Q) : list Q :=
  map (fun i => start + inject_Z (Z.of_nat i) * step)
      (seq 0 (Z.to_nat (Qceiling ((stop - start) / step)))).

Definition lats : list Q := arange 33.70 34.83 0.01.
Definition lons : list Q := arange (-118.67) (-117.65) 0.01.

(** The mask of one grid cell, whose lower corner is [(cell_lat, cell_lon)]. *)
Definition in_cell (cell_lat cell_lon : Q) (c : Crime) : bool :=
  between_nan (lat c) cell_lat (cell_lat + 0.01)
  && between_nan (lon c) cell_lon (cell_lon + 0.01).

Definition grid_crimes (crime_data : list Crime) (cell_lat cell_lon : Q) : list Crime :=
  filter (in_cell cell_lat cell_lon) crime_data.

(** ** Rates, risk buckets and trend *)

(** [df['time_weight'].sum()]. *)
Definition sum_weights (df : list Crime) : R :=
  fold_right (fun c acc => (time_weight c + acc)%R) 0%R df.

(** One entry of the [citywide_rates] dict:
    [total_weighted_crimes / crime_data['time_weight'].sum() if len(crime_data) > 0 else 0]. *)
Definition citywide_rate (crime_data : list Crime) (config : Config) : R :=
  if is_empty crime_data then 0%R
  else (sum_weights (crimes_of_type config crime_data) / sum_weights crime_data)%R.

(** The [citywide_rates] dict, filled in the order of [SAFETY_METRICS]
    before the first cell is visited. *)
Definition citywide_rates (crime_data : list Crime) : list (string * R) :=
  map (fun entry => (fst entry, citywide_rate crime_data (snd entry))) SAFETY_METRICS.

(** [d[key]] on a dict kept as an association list; [None] is a KeyError. *)
Fixpoint getitem {V : Type} (d : list (string * V)) (key : string) : option V :=
  match d with
  | [] => None
  | (k, v) :: rest => if String.eqb k key then Some v else getitem rest key
  end.

(** [local_weighted_rate / citywide if citywide > 0 else 1]. *)
Definition relative_rate (local_weighted_rate citywide : R) : R :=
  if Rlt_dec 0 citywide then (local_weighted_rate / citywide)%R else 1%R.

(** The [if]/[elif] chain on [relative_rate]: [(risk_level, score)]. *)
Definition risk_of (rel : R) : string * Z :=
  if Rle_dec rel 0.3 then ("Low risk", 8%Z)
  else if Rle_dec rel 0.7 then ("Medium risk", 6%Z)
  else if Rle_dec rel 1.5 then ("High risk", 4%Z)
  else ("Maximum risk", 2%Z).

Definition qmax (a b : Q) : Q := if Qle_bool a b then b else a.

(** [crimes['days_ago'].max()] of a frame with at least one row. *)
Definition max_days_ago (first : Crime) (rest : list Crime) : Q :=
  fold_left (fun m c => qmax m (days_ago c)) rest (days_ago first).

(** Python's [x or 1] on a number: [1] when [x] is zero, [x] otherwise. *)
Definition or_1 (x : Q) : Q := if Qeq_bool x 0 then 1 else x.

(** [len(crimes[crimes['days_ago'] <= 90])]. *)
Definition recent_count (crimes : list Crime) : nat :=
  count (fun c => Qle_bool (days_ago c) 90) crimes.

Definition of_nat (n : nat) : Q := inject_Z (Z.of_nat n).

(** [recent_crimes / 90 * 365 if recent_crimes > 0 else 0]. *)
Definition recent_rate (recent_crimes : nat) : Q :=
  if (0 <? recent_crimes)%nat then of_nat recent_crimes / 90 * 365 else 0.

(** [total_crimes / days_covered * 365]. *)
Definition historical_rate (total_crimes : nat) (days_covered : Q) : Q :=
  of_nat total_crimes / days_covered * 365.

(** The trend arrow. *)
Definition trend_of (recent historical : Q) : string :=
  if Qlt_bool (historical * 1.2) recent then "↑"
  else if Qlt_bool recent (historical * 0.8) then "↓"
  else "→".

(** ** The emitted rows *)

(** A formatted string, kept as its parts: [Fix2 x] stands for [f"{x:.2f}"]. *)
Inductive Piece : Type :=
| Str (s : string)
| Int (n : Z)
| Fix2 (x : R).

(** The values of a metric dict; [VIso t] is [t.isoformat()]. *)
Inductive Value : Type :=
| VStr (s : string)
| VInt (n : Z)
| VFloat (x : Q)
| VIso (t : Q)
| VFormat (ps : list Piece).

(** A metric row: the dict literal of the script, keys in source order. *)
Definition Metric : Type := list (string * Value).

(** What one run reads from outside: the [k]-th [uuid.uuid4()] and the
    [k]-th [datetime.now()] of the scoring loop (seconds).  Both are called
    once per appended row, so [k] is the number of rows appended so far. *)
Record World : Type := {
  uuid4 : nat -> string;
  datetime_now : nat -> Q
}.

(** [timedelta(days=30)] in seconds. *)
Definition days_30 : Q := 30 * 86400.

(** The body of the inner loop for one metric type of one non-empty cell,
    up to the [append]: the dict it builds, or [None] where it [continue]s.
    [k] numbers the calls to [uuid4] and [datetime.now]. *)
Definition metric_row (w : World) (k : nat) (rates : list (string * R))
    (cell_lat cell_lon : Q) (cell_rows : list Crime)
    (entry : string * Config) : option Metric :=
  let metric_type := fst entry in
  let config := snd entry in
  match crimes_of_type config cell_rows, getitem rates metric_type with
  | [], _ => None
  | _ :: _, None => None
  | first :: rest, Some citywide =>
      let crimes := first :: rest in
      let local_weighted_rate := (sum_weights crimes / sum_weights cell_rows)%R in
      let rel := relative_rate local_weighted_rate citywide in
      let risk_level := fst (risk_of rel) in
      let score := snd (risk_of rel) in
      let recent_crimes := recent_count crimes in
      let total_crimes := List.length crimes in
      let days_covered := or_1 (max_days_ago first rest) in
      let trend :=
        trend_of (recent_rate recent_crimes) (historical_rate total_crimes days_covered) in
      let debug_info :=
        [ Str " [Debug: "; Int (Z.of_nat total_crimes); Str " incidents (";
          Int (Z.of_nat recent_crimes); Str " in last 90 days) "; Str trend;
          Str ", "; Fix2 rel; Str "x city average]" ] in
      let now_utc := datetime_now w k in
      let expires_utc := now_utc + days_30 in
      Some
        [ ("id", VStr (uuid4 w k));
          ("latitude", VFloat (cell_lat + 0.005));
          ("longitude", VFloat (cell_lon + 0.005));
          ("metric_type", VStr metric_type);
          ("score", VInt score);
          ("question", VStr (question config));
          ("description",
           VFormat (Str risk_level :: Str ". " :: Str (description config) :: debug_info));
          ("created_at", VIso now_utc);
          ("expires_at", VIso expires_utc) ]
  end.

(** One turn of the inner loop: [metrics.append(...)] unless it [continue]s.
    Every appended row made one call to [uuid4] and one to [datetime.now],
    so the next call is number [len(metrics)]. *)
Definition score_metric (w : World) (rates : list (string * R))
    (cell_lat cell_lon : Q) (cell_rows : list Crime)
    (metrics : list Metric) (entry : string * Config) : list Metric :=
  match metric_row w (List.length metrics) rates cell_lat cell_lon cell_rows entry with
  | Some row => metrics ++ [row]
  | None => metrics
  end.

(** The body of the outer loops for one cell. *)
Definition score_cell (w : World) (crime_data : list Crime) (rates : list (string * R))
    (metrics : list Metric) (cell : Q * Q) : list Metric :=
  let cell_rows := grid_crimes crime_data (fst cell) (snd cell) in
  if is_empty cell_rows then metrics
  else fold_left (score_metric w rates (fst cell) (snd cell) cell_rows) SAFETY_METRICS metrics.

(** [for lat in lats: for lon in lons: ...], the rows appended in turn. *)
Definition calculate_safety_metrics (w : World) (crime_data : list Crime) : list Metric :=
  let rates := citywide_rates crime_data in
  fold_left (score_cell w crime_data rates) (list_prod lats lons) [].

(** ** upload_to_supabase *)

(** The [safety_metrics] table as the client calls use it: rows keyed by
    their ["id"]. *)
Definition Store : Type := list Metric.

Definition score_gte_0 (row : Metric) : bool :=
  match getitem row "score" with
  | Some (VInt s) => (0 <=? s)%Z
  | _ => false
  end.

(** [table.delete().gte('score', 0)]. *)
Definition delete_gte_score_0 (store : Store) : Store :=
  filter (fun row => negb (score_gte_0 row)) store.

Definition same_id (a b : Metric) : bool :=
  match getitem a "id", getitem b "id" with
  | Some (VStr x), Some (VStr y) => String.eqb x y
  | _, _ => false
  end.

Fixpoint upsert_row (row : Metric) (store : Store) : Store :=
  match store with
  | [] => [row]
  | r :: rest => if same_id r row then row :: rest else r :: upsert_row row rest
  end.

(** [table.upsert(batch)]. *)
Definition upsert (batch : list Metric) (store : Store) : Store :=
  fold_left (fun st row => upsert_row row st) batch store.

Definition batch_size : nat := 50.

(** [range(0, n, step)]. *)
Definition range_step (n step : nat) : list nat :=
  map (fun k => (k * step)%nat) (seq 0 ((n + step - 1) / step)).

(** [metrics[i:i+batch_size]] for [i] in [range(0, len(metrics), batch_size)]. *)
Definition batches_of (metrics : list Metric) : list (list Metric) :=
  map (fun i => firstn batch_size (skipn i metrics))
      (range_step (List.length metrics) batch_size).

(** The upload loop.  [raises k] tells whether the [k]-th [execute()] of the
    call raises; the first exception leaves the [try] block. *)
Fixpoint upsert_batches (raises : nat -> bool) (k : nat)
    (batches : list (list Metric)) (store : Store) : Store * bool :=
  match batches with
  | [] => (store, true)
  | batch :: rest =>
      if raises k then (store, false)
      else upsert_batches raises (S k) rest (upsert batch store)
  end.

(** The table after the call, and the boolean the call returns. *)
Definition upload_to_supabase (raises : nat -> bool) (metrics : list Metric)
    (store : Store) : Store * bool :=
  if is_empty metrics then (store, false)
  else if raises 0%nat then (store, false)
  else upsert_batches raises 1 (batches_of metrics) (delete_gte_score_0 store).

(** ** main *)



(** The rows one run computes from the fetched records. *)
Definition pipeline (w : World) (now : Q) (fetched : list RawRecord) : list Metric :=
  calculate_safety_metrics w (fst (process_crime_data now fetched)).

(** ** fetch_crime_data *)

(** The [X-Total-Count] header of a response: absent, an integer, or text
    that [int] rejects. *)
Inductive Header : Type :=
| NoHeader
| TotalCount (total_available : Z)
| NotAnInteger.

(** What one [requests.get] followed by [raise_for_status] and [json] gives:
    one of the two exception classes the loop catches, or the decoded batch
    with the header. *)
Inductive Response (A : Type) : Type :=
| Timeout
| RequestException
| Json (batch : list A) (header : Header).
Arguments Timeout {A}.
Arguments RequestException {A}.
Arguments Json {A} batch header.

(** The exceptions the function lets escape. *)
Inductive Exn : Type :=
| UnboundLocalError
| ValueError
| ZeroDivisionError.

Inductive Fetched (A : Type) : Type :=
| Returned (data : list A)
| Raised (e : Exn).
Arguments Returned {A} data.
Arguments Raised {A} e.

(** The local variables of the loop; [batch] is [None] until the first
    assignment, and [batch_size] is the length of [batch] whenever it is
    bound.  [requests] counts the calls made so far. *)
Record FetchState (A : Type) : Type := mkFetchState {
  all_data : list A;
  offset : nat;
  batch : option (list A);
  requests : nat
}.
Arguments mkFetchState {A} all_data offset batch requests.
Arguments all_data {A} f.
Arguments offset {A} f.
Arguments batch {A} f.
Arguments requests {A} f.

Definition limit : nat := 1000.
Definition retries : nat := 3.

Definition failed {A : Type} (r : Response A) : bool :=
  match r with
  | Json _ _ => false
  | _ => true
  end.

(** The progress line: [int(header)] and the division by it. *)
Definition progress (h : Header) : option Exn :=
  match h with
  | NoHeader => None
  | TotalCount total_available =>
      if (total_available =? 0)%Z then Some ZeroDivisionError else None
  | NotAnInteger => Some ValueError
  end.

(** The [for attempt in range(retries)] loop with [n] attempts left.
    [valid] is [isinstance(record, dict) and 'date_occ' in record], and
    [get k off] is the response to call number [k], asked at offset [off].
    The waits between attempts and the printing are left out. *)
Fixpoint attempts {A : Type} (valid : A -> bool) (get : nat -> nat -> Response A)
    (n : nat) (st : FetchState A) : Exn + FetchState A :=
  match n with
  | O => inr st
  | S n' =>
      let sent := mkFetchState (all_data st) (offset st) (batch st) (S (requests st)) in
      match get (requests st) (offset st) with
      | Json b h =>
          let got := mkFetchState (all_data st) (offset st) (Some b) (S (requests st)) in
          if (0 <? List.length b)%nat then
            if negb (forallb valid b) then attempts valid get n' got
            else
              match progress h with
              | Some e => inl e
              | None =>
                  if (List.length b <? limit)%nat then
                    inr (mkFetchState (all_data st ++ b) (offset st) (Some b)
                           (S (requests st)))
                  else
                    inr (mkFetchState (all_data st ++ b) (offset st + List.length b)
                           (Some b) (S (requests st)))
              end
          else inr got
      | _ =>
          match n' with
          | S _ => attempts valid get n' sent
          | O => inr sent
          end
      end
  end.

(** The [while True] loop; [None] when [fuel] rounds were not enough. *)
Fixpoint fetch_loop {A : Type} (valid : A -> bool) (get : nat -> nat -> Response A)
    (fuel : nat) (st : FetchState A) : option (Fetched A) :=
  match fuel with
  | O => None
  | S fuel' =>
      match attempts valid get retries st with
      | inl e => Some (Raised e)
      | inr st' =>
          match batch st' with
          | None => Some (Raised UnboundLocalError)
          | Some b =>
              if is_empty b || (List.length b <? limit)%nat
              then Some (Returned (all_data st'))
              else fetch_loop valid get fuel' st'
          end
      end
  end.

(** The statistics printed after the loop change nothing of the result. *)
Definition fetch_crime_data {A : Type} (valid : A -> bool)
    (get : nat -> nat -> Response A) (fuel : nat) : option (Fetched A) :=
  fetch_loop valid get fuel (mkFetchState [] 0 None 0).

(** A server that holds [dataset] and answers every call with the page
    asked for, with a header the progress line accepts. *)
Definition serves {A : Type} (dataset : list A) (get : nat -> nat -> Response A) : Prop :=
  forall k off, exists h,
    get k off = Json (firstn limit (skipn off dataset)) h /\ progress h = None.

Definition page_server {A : Type} (dataset : list A) : nat -> nat -> Response A :=
  fun _ off => Json (firstn limit (skipn off dataset)) NoHeader.

(** A server that answers the first call with [page] and no call after. *)
Definition one_page_server {A : Type} (page : list A) : nat -> nat -> Response A :=
  fun k _ => match k with O => Json page NoHeader | S _ => Timeout end.

Definition down_server {A : Type} : nat -> nat -> Response A :=
  fun _ _ => RequestException.

(** ** Vocabulary of the statements *)




(** A validated record on the line between the first two rows of cells. *)
Definition boundary_raw : RawRecord :=
  {| raw_date_occ := Some (-864000);
     raw_lat := Some 33.71;
     raw_lon := Some (-118.005);
     raw_crm_cd := "330" |}.



(** A raw record that passes every check of the ingestion: its timestamp
    parsed and is not after [now], both coordinates parsed and lie in the
    bounding box. *)
Definition survives (now : Q) (r : RawRecord) : Prop :=
  exists t x y,
    raw_date_occ r = Some t /\ t <= now /\
    raw_lat r = Some x /\ raw_lon r = Some y /\
    33.70 <= x /\ x <= 34.83 /\ -118.67 <= y /\ y <= -117.65.

(** The same checks, as the masks of the script compose them. *)
Definition raw_in_la (r : RawRecord) : bool :=
  between_nan (raw_lat r) 33.70 34.83 && between_nan (raw_lon r) (-118.67) (-117.65).

Definition raw_kept (now : Q) (r : RawRecord) : bool :=
  date_kept now r && raw_in_la r.



(** The keys whose values come from [uuid4] and the clock. *)
Definition volatile (key : string) : bool :=
  String.eqb key "id" || String.eqb key "created_at" || String.eqb key "expires_at".

(** A row without its ["id"], ["created_at"] and ["expires_at"]. *)
Definition erase (m : Metric) : Metric :=
  filter (fun kv => negb (volatile (fst kv))) m.

Definition null_world : World :=
  {| uuid4 := fun _ => ""; datetime_now := fun _ => 0 |}.

Definition opt_list {A : Type} (o : option A) : list A :=
  match o with
  | Some a => [a]
  | None => []
  end.

(** What the rows of one cell say, ids and timestamps apart. *)
Definition cell_content (crime_data : list Crime) (rates : list (string * R))
    (cell : Q * Q) : list Metric :=
  let cell_rows := grid_crimes crime_data (fst cell) (snd cell) in
  if is_empty cell_rows then []
  else flat_map
         (fun entry =>
            opt_list (option_map erase
              (metric_row null_world 0 rates (fst cell) (snd cell) cell_rows entry)))
         SAFETY_METRICS.


(** [m] is the row of the given cell and metric type. *)
Definition is_metric_for (cell : Q * Q) (metric_type : string) (m : Metric) : Prop :=
  getitem m "latitude" = Some (VFloat (fst cell + 0.005)) /\
  getitem m "longitude" = Some (VFloat (snd cell + 0.005)) /\
  getitem m "metric_type" = Some (VStr metric_type).

(** The cell just above the line of [boundary_raw], and the table entry
    for vehicle crimes, which its code 330 counts toward. *)
Definition sample_cell : Q * Q := (nth 1 lats 0, nth 66 lons 0).

Definition vehicle_entry : string * Config :=
  nth 1 SAFETY_METRICS
      ("", {| question := ""; description := ""; crime_codes := []; time_filter := None |}).


(** A vehicle crime twelve hours before [now = 0], inside [sample_cell]. *)
Definition young_raw : RawRecord :=
  {| raw_date_occ := Some (-43200);
     raw_lat := Some 33.715;
     raw_lon := Some (-118.005);
     raw_crm_cd := "330" |}.

Definition young_crime : Crime :=
  {| date_occ := -43200;
     crm_cd := "330";
     hour := hour_of (-43200);
     days_ago := days_ago_of 0 (-43200);
     time_weight := decay (days_ago_of 0 (-43200));
     lat := Some 33.715;
     lon := Some (-118.005) |}.


(** Rows to upload, told apart by their ["id"]. *)
Definition sample_row (i : nat) : Metric :=
  [ ("id", VStr (String (ascii_of_nat (48 + i)) ""));
    ("latitude", VFloat 33.715);
    ("longitude", VFloat (-118.005));
    ("metric_type", VStr "vehicle");
    ("score", VInt 4);
    ("question", VStr "Can I park here safely?");
    ("description", VFormat [Str "High risk"; Str ". "; Str "Risk of vehicle theft and break-ins"]);
    ("created_at", VIso 0);
    ("expires_at", VIso (30 * 86400)) ].

Definition sample_rows (n : nat) : list Metric := map sample_row (seq 0 n).

(** A row left in the table by an earlier run. *)
Definition stale_row : Metric := sample_row 70.

(** The third request of the call (the second [upsert]) raises. *)
Definition second_upsert_raises (k : nat) : bool := Nat.eqb k 2.





(** Where a row sits on the map and which metric it scores. *)
Definition row_key (m : Metric) : option Value * option Value * option Value :=
  (getitem m "latitude", getitem m "longitude", getitem m "metric_type").

(** The number of grid cells that hold at least one record. *)
Definition nonempty_cells (crime_data : list Crime) (cells : list (Q * Q)) : nat :=
  count (fun cell => negb (is_empty (grid_crimes crime_data (fst cell) (snd cell)))) cells.

(** * Properties *)

(** ** Grid geometry *)

Lemma between_true (x lo hi : Q) : between x lo hi = true <-> lo <= x /\ x <= hi.
Proof.
  unfold between. rewrite andb_true_iff, !Qle_bool_iff. tauto.
Qed.


Lemma in_arange (start stop step la : Q) :
  In la (arange start stop step) <->
  exists i : nat, (i < Z.to_nat (Qceiling ((stop - start) / step)))%nat
                  /\ la = start + inject_Z (Z.of_nat i) * step.
Proof.
  unfold arange. rewrite in_map_iff. split.
  - intros [i [E Hi]]. exists i. apply in_seq in Hi. split; [lia | now symmetry].
  - intros [i [Hi E]]. exists i. split; [now symmetry | apply in_seq; lia].
Qed.

Lemma in_lats (la : Q) :
  In la lats <-> exists i : nat, (i < 113)%nat /\ la = 33.70 + inject_Z (Z.of_nat i) * 0.01.
Proof. unfold lats. rewrite in_arange. reflexivity. Qed.

Lemma in_lons (lo : Q) :
  In lo lons <-> exists j : nat, (j < 102)%nat /\ lo = -118.67 + inject_Z (Z.of_nat j) * 0.01.
Proof. unfold lons. rewrite in_arange. reflexivity. Qed.


Section Axis.
Variables (origin : Q) (n : nat).


End Axis.

Lemma in_la_bounds (c : Crime) :
  in_la c = true <->
  exists x y, lat c = Some x /\ lon c = Some y /\
              33.70 <= x /\ x <= 34.83 /\ -118.67 <= y /\ y <= -117.65.
Proof.
  unfold in_la, between_nan. rewrite andb_true_iff. split.
  - intros [Hx Hy]. destruct (lat c) as [x|]; [|discriminate].
    destruct (lon c) as [y|]; [|discriminate].
    apply between_true in Hx, Hy. exists x, y. tauto.
  - intros (x & y & -> & -> & H). rewrite !between_true. tauto.
Qed.






(** ** Ingestion *)



Lemma with_time_fields_some (now : Q) (r : RawRecord) (c : Crime) :
  In c (with_time_fields now r) <->
  exists t, raw_date_occ r = Some t /\
    c = {| date_occ := t; crm_cd := raw_crm_cd r; hour := hour_of t;
           days_ago := days_ago_of now t; time_weight := decay (days_ago_of now t);
           lat := raw_lat r; lon := raw_lon r |}.
Proof.
  unfold with_time_fields. destruct (raw_date_occ r) as [t|]; simpl.
  - split.
    + intros [E | []]. exists t. split; [reflexivity | now symmetry].
    + intros (t' & E & ->). injection E as <-. now left.
  - split; [intros [] | intros (t & E & _); discriminate].
Qed.

Lemma with_time_fields_coords (now : Q) (r : RawRecord) (c : Crime) :
  In c (with_time_fields now r) ->
  lat c = raw_lat r /\ lon c = raw_lon r /\ raw_date_occ r = Some (date_occ c)
  /\ crm_cd c = raw_crm_cd r /\ in_la c = raw_in_la r.
Proof.
  intro H. apply with_time_fields_some in H. destruct H as (t & E & ->).
  simpl. unfold in_la, raw_in_la. simpl. auto.
Qed.

Lemma date_kept_iff (now : Q) (r : RawRecord) :
  date_kept now r = true <-> exists t, raw_date_occ r = Some t /\ t <= now.
Proof.
  unfold date_kept. destruct (raw_date_occ r) as [t|].
  - rewrite Qle_bool_iff. split.
    + intro H. now exists t.
    + intros (t' & E & H). now injection E as <-.
  - split; [discriminate | intros (t & E & _); discriminate].
Qed.

Lemma raw_in_la_iff (r : RawRecord) :
  raw_in_la r = true <->
  exists x y, raw_lat r = Some x /\ raw_lon r = Some y /\
              33.70 <= x /\ x <= 34.83 /\ -118.67 <= y /\ y <= -117.65.
Proof.
  unfold raw_in_la, between_nan. rewrite andb_true_iff. split.
  - intros [Hx Hy]. destruct (raw_lat r) as [x|]; [|discriminate].
    destruct (raw_lon r) as [y|]; [|discriminate].
    apply between_true in Hx, Hy. exists x, y. tauto.
  - intros (x & y & -> & -> & H). rewrite !between_true. tauto.
Qed.

Lemma raw_kept_iff (now : Q) (r : RawRecord) : raw_kept now r = true <-> survives now r.
Proof.
  unfold raw_kept, survives. rewrite andb_true_iff, date_kept_iff, raw_in_la_iff.
  split.
  - intros [(t & Et & Ht) (x & y & H)]. exists t, x, y. tauto.
  - intros (t & x & y & Et & Ht & H). split; [now exists t | exists x, y; tauto].
Qed.

(** The validated frame, record by record. *)
Lemma process_crime_data_rows (now : Q) (raw : list RawRecord) :
  fst (process_crime_data now raw)
  = flat_map (with_time_fields now) (filter (raw_kept now) raw).
Proof.
  unfold process_crime_data. simpl.
  induction raw as [|r raw IH]; [reflexivity|].
  simpl. unfold raw_kept at 1.
  destruct (date_kept now r) eqn:D; simpl; [|exact IH].
  rewrite filter_app, IH.
  assert (E : filter in_la (with_time_fields now r)
              = if raw_in_la r then with_time_fields now r else []).
  { pose proof (with_time_fields_coords now r) as W.
    unfold with_time_fields in *. destruct (raw_date_occ r) as [t|]; simpl.
    - destruct (W _ (or_introl eq_refl)) as (_ & _ & _ & _ & ->).
      destruct (raw_in_la r); reflexivity.
    - destruct (raw_in_la r); reflexivity. }
  rewrite E. destruct (raw_in_la r); reflexivity.
Qed.

Lemma in_process_crime_data (now : Q) (raw : list RawRecord) (c : Crime) :
  In c (fst (process_crime_data now raw)) <->
  exists r, In r raw /\ survives now r /\ In c (with_time_fields now r).
Proof.
  rewrite process_crime_data_rows, in_flat_map. split.
  - intros (r & Hr & Hc). apply filter_In in Hr. destruct Hr as [Hr K].
    exists r. rewrite <- raw_kept_iff. auto.
  - intros (r & Hr & S & Hc). exists r. split; [|assumption].
    apply filter_In. rewrite raw_kept_iff. auto.
Qed.

Lemma process_crime_data_in_la (now : Q) (raw : list RawRecord) (c : Crime) :
  In c (fst (process_crime_data now raw)) -> in_la c = true.
Proof.
  unfold process_crime_data. simpl. intro H. apply filter_In in H. tauto.
Qed.








(** ** The shape of the scoring loops *)

Lemma metric_row_erased (w : World) (k : nat) (rates : list (string * R))
    (la lo : Q) (rows : list Crime) (entry : string * Config) :
  option_map erase (metric_row w k rates la lo rows entry)
  = option_map erase (metric_row null_world 0 rates la lo rows entry).
Proof.
  unfold metric_row.
  destruct (crimes_of_type (snd entry) rows); [reflexivity|].
  destruct (getitem rates (fst entry)); reflexivity.
Qed.

Lemma score_metric_erased (w : World) (rates : list (string * R)) (la lo : Q)
    (rows : list Crime) (metrics : list Metric) (entry : string * Config) :
  map erase (score_metric w rates la lo rows metrics entry)
  = map erase metrics
    ++ opt_list (option_map erase (metric_row null_world 0 rates la lo rows entry)).
Proof.
  unfold score_metric.
  rewrite <- (metric_row_erased w (List.length metrics)).
  destruct (metric_row w (List.length metrics) rates la lo rows entry); simpl.
  - rewrite map_app. reflexivity.
  - rewrite app_nil_r. reflexivity.
Qed.

Lemma fold_score_metric_erased (w : World) (rates : list (string * R)) (la lo : Q)
    (rows : list Crime) (entries : list (string * Config)) (metrics : list Metric) :
  map erase (fold_left (score_metric w rates la lo rows) entries metrics)
  = map erase metrics
    ++ flat_map (fun entry =>
         opt_list (option_map erase (metric_row null_world 0 rates la lo rows entry)))
       entries.
Proof.
  revert metrics. induction entries as [|entry entries IH]; intro metrics; simpl.
  - rewrite app_nil_r. reflexivity.
  - rewrite IH, score_metric_erased, <- app_assoc. reflexivity.
Qed.

Lemma score_cell_erased (w : World) (crime_data : list Crime)
    (rates : list (string * R)) (metrics : list Metric) (cell : Q * Q) :
  map erase (score_cell w crime_data rates metrics cell)
  = map erase metrics ++ cell_content crime_data rates cell.
Proof.
  unfold score_cell, cell_content.
  destruct (is_empty (grid_crimes crime_data (fst cell) (snd cell))).
  - rewrite app_nil_r. reflexivity.
  - apply fold_score_metric_erased.
Qed.

Lemma fold_score_cell_erased (w : World) (crime_data : list Crime)
    (rates : list (string * R)) (cells : list (Q * Q)) (metrics : list Metric) :
  map erase (fold_left (score_cell w crime_data rates) cells metrics)
  = map erase metrics ++ flat_map (cell_content crime_data rates) cells.
Proof.
  revert metrics. induction cells as [|cell cells IH]; intro metrics; simpl.
  - rewrite app_nil_r. reflexivity.
  - rewrite IH, score_cell_erased, <- app_assoc. reflexivity.
Qed.

(** The rows of a run, ids and timestamps apart, cell by cell. *)
Lemma calculate_safety_metrics_erased (w : World) (crime_data : list Crime) :
  map erase (calculate_safety_metrics w crime_data)
  = flat_map (cell_content crime_data (citywide_rates crime_data)) (list_prod lats lons).
Proof.
  unfold calculate_safety_metrics. rewrite fold_score_cell_erased. reflexivity.
Qed.

Lemma getitem_erase (m : Metric) (key : string) :
  volatile key = false -> getitem (erase m) key = getitem m key.
Proof.
  intro V. induction m as [|[k v] m IH]; [reflexivity|].
  simpl. destruct (volatile k) eqn:Vk; simpl.
  - destruct (String.eqb k key) eqn:E; [|exact IH].
    apply String.eqb_eq in E. congruence.
  - rewrite IH. reflexivity.
Qed.



Lemma metric_types_distinct (e1 e2 : string * Config) :
  In e1 SAFETY_METRICS -> In e2 SAFETY_METRICS -> fst e1 = fst e2 -> e1 = e2.
Proof.
  unfold SAFETY_METRICS. simpl.
  intros [<- | [<- | [<- | [<- | [<- | []]]]]] [<- | [<- | [<- | [<- | [<- | []]]]]] E;
    solve [reflexivity | discriminate E].
Qed.

(** ** Which rows are emitted *)

Lemma lat_center_inj (la la' : Q) :
  In la lats -> In la' lats -> la' + 0.005 = la + 0.005 -> la' = la.
Proof.
  intros H H' E. apply in_lats in H, H'.
  destruct H as (i & _ & ->), H' as (i' & _ & ->).
  assert (Eq : 33.70 + inject_Z (Z.of_nat i') * 0.01 + 0.005
               == 33.70 + inject_Z (Z.of_nat i) * 0.01 + 0.005) by (rewrite E; reflexivity).
  assert (Ei : inject_Z (Z.of_nat i') == inject_Z (Z.of_nat i)) by qlra.
  apply (proj1 (inject_Z_injective _ _)) in Ei. apply Nat2Z.inj in Ei. subst i'. reflexivity.
Qed.

Lemma lon_center_inj (lo lo' : Q) :
  In lo lons -> In lo' lons -> lo' + 0.005 = lo + 0.005 -> lo' = lo.
Proof.
  intros H H' E. apply in_lons in H, H'.
  destruct H as (i & _ & ->), H' as (i' & _ & ->).
  assert (Eq : -118.67 + inject_Z (Z.of_nat i') * 0.01 + 0.005
               == -118.67 + inject_Z (Z.of_nat i) * 0.01 + 0.005) by (rewrite E; reflexivity).
  assert (Ei : inject_Z (Z.of_nat i') == inject_Z (Z.of_nat i)) by qlra.
  apply (proj1 (inject_Z_injective _ _)) in Ei. apply Nat2Z.inj in Ei. subst i'. reflexivity.
Qed.

Lemma some_vfloat_inj (a b : Q) : Some (VFloat a) = Some (VFloat b) -> a = b.
Proof. intro H. injection H as H. exact H. Qed.


Lemma metric_row_is_metric_for (w : World) (k : nat) (rates : list (string * R))
    (la lo : Q) (rows : list Crime) (entry : string * Config) (m : Metric) :
  metric_row w k rates la lo rows entry = Some m ->
  is_metric_for (la, lo) (fst entry) m.
Proof.
  unfold metric_row.
  destruct (crimes_of_type (snd entry) rows) as [|first rest]; [discriminate|].
  destruct (getitem rates (fst entry)) as [citywide|]; [|discriminate].
  intro E. injection E as <-. repeat split.
Qed.






(** ** The recency weight *)

Lemma ln_2_pos : (0 < ln 2)%R.
Proof. rewrite <- ln_1. apply ln_increasing; rlra. Qed.

Lemma decay_pos (d : Q) : (0 < decay d)%R.
Proof. apply exp_pos. Qed.

Lemma decay_0 : decay 0 = 1%R.
Proof.
  unfold decay. replace (- Q2R 0 * (ln 2 / 180))%R with 0%R.
  - apply exp_0.
  - rewrite RMicromega.Q2R_0. field.
Qed.


Lemma decay_decreasing (d1 d2 : Q) : d1 < d2 -> (decay d2 < decay d1)%R.
Proof.
  intro H. apply Qlt_Rlt in H. unfold decay. apply exp_increasing.
  pose proof ln_2_pos as L.
  assert (S : (Q2R d1 * (ln 2 / 180) < Q2R d2 * (ln 2 / 180))%R).
  { apply Rmult_lt_compat_r; [|assumption]. rlra. }
  rlra.
Qed.

Lemma decay_le_1 (d : Q) : 0 <= d -> (decay d <= 1)%R.
Proof.
  intro H. destruct (Qle_lt_or_eq _ _ H) as [L | E].
  - left. rewrite <- decay_0. now apply decay_decreasing.
  - right. rewrite <- decay_0. unfold decay. apply Qeq_eqR in E. rewrite <- E. reflexivity.
Qed.

Lemma days_ago_of_nonneg (now t : Q) : t <= now -> 0 <= days_ago_of now t.
Proof.
  intro H. unfold days_ago_of.
  assert (E : (now - t) / (24 * 3600) == (now - t) * (1 # 86400)) by field.
  rewrite E. qlra.
Qed.

(** What every validated row carries: its age in days and the weight the
    age gives. *)
Lemma process_crime_data_weights (now : Q) (raw : list RawRecord) (c : Crime) :
  In c (fst (process_crime_data now raw)) ->
  days_ago c = days_ago_of now (date_occ c) /\
  0 <= days_ago c /\
  time_weight c = decay (days_ago c).
Proof.
  intro H. apply in_process_crime_data in H.
  destruct H as (r & _ & S & Hc).
  apply with_time_fields_some in Hc. destruct Hc as (t & Et & ->). simpl.
  destruct S as (t' & x & y & Et' & Ht & _).
  assert (t' = t) by congruence. subst t'.
  split; [reflexivity|]. split; [|reflexivity]. now apply days_ago_of_nonneg.
Qed.



(** ** Weight sums *)

Lemma sum_weights_nonneg (df : list Crime) :
  Forall (fun c => (0 < time_weight c)%R) df -> (0 <= sum_weights df)%R.
Proof.
  induction 1 as [|c df Hc _ IH]; simpl; rlra.
Qed.

Lemma sum_weights_pos (df : list Crime) :
  Forall (fun c => (0 < time_weight c)%R) df -> df <> [] -> (0 < sum_weights df)%R.
Proof.
  intros H Hne. destruct H as [|c df Hc Hdf]; [now elim Hne|].
  simpl. pose proof (sum_weights_nonneg df Hdf). rlra.
Qed.

Lemma process_crime_data_positive (now : Q) (raw : list RawRecord) :
  Forall (fun c => (0 < time_weight c)%R) (fst (process_crime_data now raw)).
Proof.
  apply Forall_forall. intros c H. apply process_crime_data_weights in H.
  destruct H as (_ & _ & ->). apply decay_pos.
Qed.

Lemma Forall_filter_keep {A : Type} (P : A -> Prop) (f : A -> bool) (l : list A) :
  Forall P l -> Forall P (filter f l).
Proof.
  rewrite !Forall_forall. intros H x Hx. apply filter_In in Hx. apply H. tauto.
Qed.

Lemma crimes_of_type_positive (config : Config) (df : list Crime) :
  Forall (fun c => (0 < time_weight c)%R) df ->
  Forall (fun c => (0 < time_weight c)%R) (crimes_of_type config df).
Proof.
  intro H. unfold crimes_of_type. destruct (time_filter config).
  - now apply Forall_filter_keep, Forall_filter_keep.
  - now apply Forall_filter_keep.
Qed.

(** C10: the weights of the records of a non-empty grid cell sum to a
    strictly positive number, so the quotient that gives the cell's local
    weighted rate has a divisor other than zero. *)
Theorem cell_weight_positive (now : Q) (raw : list RawRecord) (cell_lat cell_lon : Q) :
  grid_crimes (fst (process_crime_data now raw)) cell_lat cell_lon <> [] ->
  (0 < sum_weights (grid_crimes (fst (process_crime_data now raw)) cell_lat cell_lon))%R
  /\ sum_weights (grid_crimes (fst (process_crime_data now raw)) cell_lat cell_lon) <> 0%R.
Proof.
  intro Hne.
  assert (P : (0 < sum_weights
                     (grid_crimes (fst (process_crime_data now raw)) cell_lat cell_lon))%R).
  { apply sum_weights_pos; [|assumption].
    apply Forall_filter_keep, process_crime_data_positive. }
  split; [exact P | rlra].
Qed.

Lemma cell_weight_positive_witness :
  grid_crimes (fst (process_crime_data 0 [boundary_raw])) (nth 1 lats 0%Q) (nth 66 lons 0%Q) <> []
  /\ (0 < sum_weights (grid_crimes (fst (process_crime_data 0 [boundary_raw]))
                                   (nth 1 lats 0%Q) (nth 66 lons 0%Q)))%R.
Proof.
  assert (N : grid_crimes (fst (process_crime_data 0 [boundary_raw]))
                (nth 1 lats 0%Q) (nth 66 lons 0%Q) <> []) by discriminate.
  split; [exact N|].
  exact (proj1 (cell_weight_positive 0 [boundary_raw] (nth 1 lats 0%Q) (nth 66 lons 0%Q) N)).
Defined.

(** ** The rows themselves *)

Section LoopInvariant.
Variables (w : World) (rates : list (string * R)) (P : Metric -> Prop).

Lemma fold_score_metric_inv (la lo : Q) (rows : list Crime)
    (entries : list (string * Config)) (metrics : list Metric) :
  (forall m, In m metrics -> P m) ->
  (forall k entry m, In entry entries ->
     metric_row w k rates la lo rows entry = Some m -> P m) ->
  forall m, In m (fold_left (score_metric w rates la lo rows) entries metrics) -> P m.
Proof.
  revert metrics. induction entries as [|entry entries IH]; intros metrics Hacc Hrow m Hm.
  - apply Hacc. exact Hm.
  - simpl in Hm. apply IH in Hm; [exact Hm | | ].
    + intros m' Hm'. unfold score_metric in Hm'.
      destruct (metric_row w (List.length metrics) rates la lo rows entry) as [row|] eqn:R.
      * apply in_app_or in Hm'. destruct Hm' as [Hm' | [<- | []]].
        -- apply Hacc. exact Hm'.
        -- apply (Hrow (List.length metrics) entry); [left; reflexivity | exact R].
      * apply Hacc. exact Hm'.
    + intros k e m' He. apply Hrow. right. exact He.
Qed.

Lemma fold_score_cell_inv (crime_data : list Crime) (cells : list (Q * Q))
    (metrics : list Metric) :
  (forall m, In m metrics -> P m) ->
  (forall k cell entry m, In cell cells -> In entry SAFETY_METRICS ->
     metric_row w k rates (fst cell) (snd cell)
       (grid_crimes crime_data (fst cell) (snd cell)) entry = Some m -> P m) ->
  forall m, In m (fold_left (score_cell w crime_data rates) cells metrics) -> P m.
Proof.
  revert metrics. induction cells as [|cell cells IH]; intros metrics Hacc Hrow m Hm.
  - apply Hacc. exact Hm.
  - simpl in Hm. apply IH in Hm; [exact Hm | | ].
    + intros m' Hm'. unfold score_cell in Hm'.
      destruct (is_empty (grid_crimes crime_data (fst cell) (snd cell))).
      * apply Hacc. exact Hm'.
      * apply fold_score_metric_inv in Hm'; [exact Hm' | exact Hacc |].
        intros k entry m0 He R. apply (Hrow k cell entry); [left; reflexivity | exact He | exact R].
    + intros k c e m' Hc. apply Hrow. right. exact Hc.
Qed.
End LoopInvariant.

(** Every row of the output was built by [metric_row] for a cell of the
    grid and an entry of the metric table. *)
Lemma calculate_safety_metrics_rows (w : World) (crime_data : list Crime) (m : Metric) :
  In m (calculate_safety_metrics w crime_data) ->
  exists cell entry k,
    In cell (list_prod lats lons) /\ In entry SAFETY_METRICS /\
    metric_row w k (citywide_rates crime_data) (fst cell) (snd cell)
      (grid_crimes crime_data (fst cell) (snd cell)) entry = Some m.
Proof.
  unfold calculate_safety_metrics.
  apply (fold_score_cell_inv w (citywide_rates crime_data)
           (fun m => exists cell entry k,
              In cell (list_prod lats lons) /\ In entry SAFETY_METRICS /\
              metric_row w k (citywide_rates crime_data) (fst cell) (snd cell)
                (grid_crimes crime_data (fst cell) (snd cell)) entry = Some m)).
  - intros m' [].
  - intros k cell entry m' Hc He R. exists cell, entry, k.
    split; [exact Hc|]. split; [exact He | exact R].
Qed.



(** The fields of a row, read off the dict literal. *)
Lemma metric_row_fields (w : World) (k : nat) (rates : list (string * R))
    (la lo : Q) (rows : list Crime) (entry : string * Config) (m : Metric) :
  metric_row w k rates la lo rows entry = Some m ->
  exists first rest citywide,
    crimes_of_type (snd entry) rows = first :: rest /\
    getitem rates (fst entry) = Some citywide /\
    let crimes := first :: rest in
    let rel := relative_rate (sum_weights crimes / sum_weights rows)%R citywide in
    let trend := trend_of (recent_rate (recent_count crimes))
                          (historical_rate (List.length crimes)
                                           (or_1 (max_days_ago first rest))) in
    map fst m = ["id"; "latitude"; "longitude"; "metric_type"; "score"; "question";
                 "description"; "created_at"; "expires_at"] /\
    getitem m "id" = Some (VStr (uuid4 w k)) /\
    getitem m "score" = Some (VInt (snd (risk_of rel))) /\
    getitem m "question" = Some (VStr (question (snd entry))) /\
    getitem m "description"
    = Some (VFormat [ Str (fst (risk_of rel)); Str ". "; Str (description (snd entry));
                      Str " [Debug: "; Int (Z.of_nat (List.length crimes));
                      Str " incidents ("; Int (Z.of_nat (recent_count crimes));
                      Str " in last 90 days) "; Str trend; Str ", "; Fix2 rel;
                      Str "x city average]" ]) /\
    getitem m "created_at" = Some (VIso (datetime_now w k)) /\
    getitem m "expires_at" = Some (VIso (datetime_now w k + days_30)).
Proof.
  unfold metric_row.
  destruct (crimes_of_type (snd entry) rows) as [|first rest]; [discriminate|].
  destruct (getitem rates (fst entry)) as [citywide|]; [|discriminate].
  intro E. injection E as <-. exists first, rest, citywide.
  split; [reflexivity|]. split; [reflexivity|]. cbv zeta.
  repeat (split; [reflexivity|]). reflexivity.
Qed.

(** ** Risk buckets *)









Lemma sample_cell_scored :
  crimes_of_type (snd vehicle_entry)
    (grid_crimes (fst (process_crime_data 0 [boundary_raw]))
                 (fst sample_cell) (snd sample_cell)) <> [].
Proof. discriminate. Qed.


(** ** Trend *)









Lemma young_crime_validated :
  fst (process_crime_data 0 [young_raw]) = [young_crime]
  /\ crimes_of_type (snd vehicle_entry)
       (grid_crimes [young_crime] (fst sample_cell) (snd sample_cell)) = [young_crime].
Proof. split; reflexivity. Qed.





(** ** The fields of a row *)







(** ** Two runs on the same input *)

Lemma erase_keys (m : Metric) :
  map fst m = ["id"; "latitude"; "longitude"; "metric_type"; "score"; "question";
               "description"; "created_at"; "expires_at"] ->
  map fst (erase m)
  = ["latitude"; "longitude"; "metric_type"; "score"; "question"; "description"].
Proof.
  intro K.
  destruct m as [|[k1 v1] [|[k2 v2] [|[k3 v3] [|[k4 v4] [|[k5 v5] [|[k6 v6]
    [|[k7 v7] [|[k8 v8] [|[k9 v9] [|? ?]]]]]]]]]]; try discriminate K.
  simpl in K. injection K as -> -> -> -> -> -> -> -> ->. reflexivity.
Qed.

(** C9: two runs of the pipeline on the same records with the same
    reference [now] give the same rows in the same order once ["id"],
    ["created_at"] and ["expires_at"] are set aside, whatever identifiers
    and clock readings each run draws; what is left of every row are its
    latitude, longitude, metric_type, score, question and description. *)
Theorem pipeline_idempotent (w1 w2 : World) (now : Q) (raw : list RawRecord) :
  map erase (pipeline w1 now raw) = map erase (pipeline w2 now raw) /\
  List.length (pipeline w1 now raw) = List.length (pipeline w2 now raw) /\
  Forall (fun m => map fst (erase m)
                   = ["latitude"; "longitude"; "metric_type"; "score"; "question";
                      "description"])
         (pipeline w1 now raw).
Proof.
  unfold pipeline.
  assert (E : map erase (calculate_safety_metrics w1 (fst (process_crime_data now raw)))
              = map erase (calculate_safety_metrics w2 (fst (process_crime_data now raw)))).
  { rewrite !calculate_safety_metrics_erased. reflexivity. }
  split; [exact E|]. split.
  - rewrite <- (length_map erase (calculate_safety_metrics w1 _)), E. apply length_map.
  - apply Forall_forall. intros m Hm. apply erase_keys.
    destruct (calculate_safety_metrics_rows w1 _ m Hm) as (cell & entry & k & _ & _ & R).
    destruct (metric_row_fields _ _ _ _ _ _ _ _ R) as (_ & _ & _ & _ & _ & K & _).
    exact K.
Qed.

(** ** Upload *)

Lemma upsert_app (a b : list Metric) (store : Store) :
  upsert (a ++ b) store = upsert b (upsert a store).
Proof. unfold upsert. apply fold_left_app. Qed.

Lemma firstn_skipn_add {A : Type} (a b : nat) (l : list A) :
  firstn a l ++ firstn b (skipn a l) = firstn (a + b) l.
Proof.
  revert l. induction a as [|a IH]; intro l; [reflexivity|].
  destruct l as [|x l]; simpl.
  - now rewrite firstn_nil.
  - f_equal. apply IH.
Qed.

Lemma range_step_length (n step : nat) :
  List.length (range_step n step) = ((n + step - 1) / step)%nat.
Proof. unfold range_step. now rewrite length_map, length_seq. Qed.

(** The first [n] batches, end to end, are the first [n * batch_size] rows. *)
Lemma concat_firstn_batches (metrics : list Metric) (n : nat) :
  List.concat (firstn n (batches_of metrics)) = firstn (n * batch_size) metrics.
Proof.
  unfold batches_of, range_step. rewrite map_map.
  set (count := ((List.length metrics + batch_size - 1) / batch_size)%nat).
  assert (G : forall start len n0,
             List.concat (firstn n0 (map (fun k => firstn batch_size (skipn (k * batch_size) metrics))
                                   (seq start len)))
             = firstn (Nat.min n0 len * batch_size) (skipn (start * batch_size) metrics)).
  { intros start len. revert start. induction len as [|len IH]; intros start n0.
    - rewrite Nat.min_0_r. simpl. now rewrite firstn_nil.
    - destruct n0 as [|n0]; [reflexivity|].
      cbn [seq map]. rewrite firstn_cons. cbn [List.concat]. rewrite IH.
      change (Nat.min (S n0) (S len)) with (S (Nat.min n0 len)).
      change (S start * batch_size)%nat with (batch_size + start * batch_size)%nat.
      rewrite <- skipn_skipn, firstn_skipn_add. reflexivity. }
  rewrite G. simpl skipn.
  destruct (Nat.le_ge_cases n count) as [L | L].
  - rewrite Nat.min_l by exact L. reflexivity.
  - rewrite Nat.min_r by exact L.
    assert (C : (List.length metrics <= count * batch_size)%nat).
    { unfold count, batch_size.
      pose proof (Nat.div_mod_eq (List.length metrics + 50 - 1) 50) as D.
      pose proof (Nat.mod_upper_bound (List.length metrics + 50 - 1) 50) as U. lia. }
    rewrite !firstn_all2; [reflexivity | | exact C].
    apply Nat.le_trans with (count * batch_size)%nat; [exact C|].
    apply Nat.mul_le_mono_r. exact L.
Qed.

(** How far the loop gets: [n] batches go in, then either the list is
    exhausted or request [k + n] raises. *)
Lemma upsert_batches_outcome (raises : nat -> bool) (batches : list (list Metric)) :
  forall (k : nat) (store : Store),
  exists n,
    (n <= List.length batches)%nat /\
    (forall j, (j < n)%nat -> raises (k + j)%nat = false) /\
    fst (upsert_batches raises k batches store) = upsert (List.concat (firstn n batches)) store /\
    (n = List.length batches -> snd (upsert_batches raises k batches store) = true) /\
    ((n < List.length batches)%nat ->
     raises (k + n)%nat = true /\ snd (upsert_batches raises k batches store) = false).
Proof.
  induction batches as [|batch rest IH]; intros k store.
  - exists 0%nat. simpl. repeat split; try reflexivity; intros; lia.
  - simpl. destruct (raises k) eqn:Rk.
    + exists 0%nat. simpl. split; [lia|]. split; [intros; lia|]. split; [reflexivity|].
      split; [discriminate|]. intros _. rewrite Nat.add_0_r. split; [exact Rk | reflexivity].
    + destruct (IH (S k) (upsert batch store)) as (n & Hn & Hok & Hst & Hall & Hfail).
      exists (S n). split; [lia|]. split.
      * intros j Hj. destruct j as [|j]; [now rewrite Nat.add_0_r|].
        replace (k + S j)%nat with (S k + j)%nat by lia. apply Hok. lia.
      * split; [simpl; rewrite upsert_app; exact Hst|]. split.
        -- intro E. apply Hall. lia.
        -- intro L. replace (k + S n)%nat with (S k + n)%nat by lia. apply Hfail. lia.
Qed.

(** C8 (as stated, refuted): 51 rows go up in two requests; when the
    second one raises the call returns [False] and leaves the table with
    the first 50 new rows only: the old row is gone, the 51st is missing. *)
Lemma failed_upload_leaves_partial_table :
  List.length (batches_of (sample_rows 51)) = 2%nat /\
  upload_to_supabase second_upsert_raises (sample_rows 51) [stale_row]
  = (sample_rows 50, false) /\
  sample_rows 50 <> [stale_row] /\
  sample_rows 50 <> sample_rows 51.
Proof.
  split; [reflexivity|]. split; [vm_compute; reflexivity|].
  split; intro E; apply (f_equal (@List.length Metric)) in E; vm_compute in E; discriminate.
Qed.

(** C8 (amended): with rows to upload, the call first deletes the rows of
    the table whose score is at least 0 and then upserts the rows in
    consecutive batches of 50, one request each.  It returns [True] exactly
    when no request raised.  When the delete raises the table is untouched;
    when an upsert raises the table has lost the deleted rows and holds the
    batches sent before, that is the first [50 * n] rows; the exception is
    caught and reported as [False].  Without rows the call does nothing and
    returns [False]. *)
Theorem upload_outcome (raises : nat -> bool) (metrics : list Metric) (store : Store) :
  (metrics = [] -> upload_to_supabase raises metrics store = (store, false)) /\
  (metrics <> [] -> raises 0%nat = true ->
   upload_to_supabase raises metrics store = (store, false)) /\
  (metrics <> [] -> raises 0%nat = false ->
   exists n,
     (n <= List.length (batches_of metrics))%nat /\
     (forall j, (j < n)%nat -> raises (S j) = false) /\
     fst (upload_to_supabase raises metrics store)
     = upsert (firstn (n * 50) metrics) (delete_gte_score_0 store) /\
     (n = List.length (batches_of metrics) ->
      snd (upload_to_supabase raises metrics store) = true) /\
     ((n < List.length (batches_of metrics))%nat ->
      raises (S n) = true /\ snd (upload_to_supabase raises metrics store) = false)) /\
  List.length (batches_of metrics) = ((List.length metrics + 49) / 50)%nat.
Proof.
  split; [|split; [|split]].
  - intros ->. reflexivity.
  - intros Hne R0. unfold upload_to_supabase.
    destruct metrics; [now elim Hne|]. simpl is_empty. cbv iota. now rewrite R0.
  - intros Hne R0. unfold upload_to_supabase.
    destruct metrics as [|m0 ms] eqn:M; [now elim Hne|]. simpl is_empty. cbv iota.
    rewrite R0. rewrite <- M.
    destruct (upsert_batches_outcome raises (batches_of metrics) 1 (delete_gte_score_0 store))
      as (n & Hn & Hok & Hst & Hall & Hfail).
    exists n. split; [exact Hn|]. split; [exact Hok|].
    split; [rewrite Hst, concat_firstn_batches; reflexivity|].
    split; [exact Hall | exact Hfail].
  - unfold batches_of. rewrite length_map, range_step_length. unfold batch_size.
    f_equal. lia.
Qed.

Lemma upload_outcome_witness :
  sample_rows 51 <> [] /\ second_upsert_raises 0 = false /\
  exists n,
    (n <= List.length (batches_of (sample_rows 51)))%nat /\
    fst (upload_to_supabase second_upsert_raises (sample_rows 51) [stale_row])
    = upsert (firstn (n * 50) (sample_rows 51)) (delete_gte_score_0 [stale_row]).
Proof.
  assert (N : sample_rows 51 <> []) by discriminate.
  assert (Z : second_upsert_raises 0 = false) by reflexivity.
  split; [exact N|]. split; [exact Z|].
  destruct (proj1 (proj2 (proj2 (upload_outcome second_upsert_raises (sample_rows 51)
                                   [stale_row]))) N Z)
    as (n & Hn & _ & Hst & _).
  exists n. split; [exact Hn | exact Hst].
Defined.

(** ** Instances on sample records *)





(** * Further properties of the run *)

(** ** Runs that emit nothing *)







(** ** Validated records *)

Lemma hour_of_range (t : Q) : (0 <= hour_of t < 24)%Z.
Proof. unfold hour_of. apply Z.mod_pos_bound. lia. Qed.

(** Every row of the validated frame has a timestamp not after [now], an
    hour of day from 0 to 23, an age of at least 0 days that is
    [(now - date_occ) / 86400], a weight in (0, 1] and coordinates in the
    bounding box. *)
Theorem validated_record_invariant (now : Q) (raw : list RawRecord) :
  Forall (fun c =>
            date_occ c <= now /\
            (0 <= hour c < 24)%Z /\
            0 <= days_ago c /\ days_ago c == (now - date_occ c) * (1 # 86400) /\
            (0 < time_weight c <= 1)%R /\
            exists x y, lat c = Some x /\ lon c = Some y /\
                        33.70 <= x /\ x <= 34.83 /\ -118.67 <= y /\ y <= -117.65)
         (fst (process_crime_data now raw)).
Proof.
  apply Forall_forall. intros c Hc.
  pose proof (process_crime_data_in_la now raw c Hc) as La.
  pose proof (process_crime_data_weights now raw c Hc) as (Ed & Nn & Ew).
  apply in_process_crime_data in Hc. destruct Hc as (r & _ & S & Hc).
  apply with_time_fields_some in Hc. destruct Hc as (t & Et & E).
  destruct S as (t' & _ & _ & Et' & Ht & _).
  assert (t' = t) by congruence. subst t'.
  assert (Edate : date_occ c = t) by (rewrite E; reflexivity).
  assert (Ehour : hour c = hour_of t) by (rewrite E; reflexivity).
  split; [rewrite Edate; exact Ht|].
  split; [rewrite Ehour; apply hour_of_range|].
  split; [exact Nn|]. split.
  - rewrite Ed. unfold days_ago_of. field.
  - split.
    + rewrite Ew. split; [apply decay_pos | apply decay_le_1; exact Nn].
    + apply in_la_bounds. exact La.
Qed.

(** ** Validation record by record *)


(** ** Bounds on the rates *)

Lemma sum_weights_filter_le (f : Crime -> bool) (df : list Crime) :
  Forall (fun c => (0 < time_weight c)%R) df ->
  (sum_weights (filter f df) <= sum_weights df)%R.
Proof.
  induction 1 as [|c df Hc _ IH]; simpl; [rlra|].
  destruct (f c); simpl; rlra.
Qed.

Lemma filter_comm {A : Type} (f g : A -> bool) (l : list A) :
  filter f (filter g l) = filter g (filter f l).
Proof.
  induction l as [|a l IH]; [reflexivity|].
  simpl. destruct (f a) eqn:F, (g a) eqn:G; simpl; rewrite ?F, ?G, IH; reflexivity.
Qed.

(** The qualifying rows of a part of the frame are that part of the
    qualifying rows. *)
Lemma crimes_of_type_filter (config : Config) (p : Crime -> bool) (df : list Crime) :
  crimes_of_type config (filter p df) = filter p (crimes_of_type config df).
Proof.
  unfold crimes_of_type. destruct (time_filter config) as [f|].
  - rewrite (filter_comm _ p df). apply filter_comm.
  - apply filter_comm.
Qed.

Lemma crimes_of_type_sum_le (config : Config) (df : list Crime) :
  Forall (fun c => (0 < time_weight c)%R) df ->
  (sum_weights (crimes_of_type config df) <= sum_weights df)%R.
Proof.
  intro H. unfold crimes_of_type. destruct (time_filter config) as [f|].
  - apply Rle_trans with (sum_weights (filter (fun c => isin (crime_codes config) (crm_cd c)) df)).
    + apply sum_weights_filter_le. apply Forall_filter_keep. exact H.
    + apply sum_weights_filter_le. exact H.
  - apply sum_weights_filter_le. exact H.
Qed.

Lemma citywide_rate_nonempty (crime_data : list Crime) (config : Config) :
  crime_data <> [] ->
  citywide_rate crime_data config
  = (sum_weights (crimes_of_type config crime_data) / sum_weights crime_data)%R.
Proof.
  intro Ne. unfold citywide_rate. destruct crime_data; [now elim Ne | reflexivity].
Qed.

Lemma quotient_in_unit (a b : R) : (0 < a)%R -> (a <= b)%R -> (0 < a / b <= 1)%R.
Proof.
  intros Ha Hab. assert (Hb : (0 < b)%R) by rlra.
  pose proof (Rinv_0_lt_compat b Hb) as Hi. unfold Rdiv. split.
  - apply Rmult_lt_0_compat; assumption.
  - replace 1%R with (b * / b)%R by (apply Rinv_r; rlra).
    apply Rmult_le_compat_r; [rlra | exact Hab].
Qed.

(** For every cell and table entry with a qualifying record, on validated
    data: the local weighted rate and the citywide rate both lie in (0, 1],
    so the fallback [else 1] of the relative rate is never taken; the
    relative rate is the quotient of the two, is positive, and is at least
    the local rate. *)
Theorem rate_bounds (now : Q) (raw : list RawRecord) (cell_lat cell_lon : Q)
    (config : Config) :
  let data := fst (process_crime_data now raw) in
  let rows := grid_crimes data cell_lat cell_lon in
  let crimes := crimes_of_type config rows in
  let local_rate := (sum_weights crimes / sum_weights rows)%R in
  let citywide := citywide_rate data config in
  crimes <> [] ->
  (0 < local_rate <= 1)%R /\ (0 < citywide <= 1)%R /\
  relative_rate local_rate citywide = (local_rate / citywide)%R /\
  (0 < relative_rate local_rate citywide)%R /\
  (local_rate <= relative_rate local_rate citywide)%R.
Proof.
  cbv zeta. intro C.
  set (data := fst (process_crime_data now raw)) in *.
  pose proof (process_crime_data_positive now raw) as Pos. fold data in Pos.
  assert (PosRows : Forall (fun c => (0 < time_weight c)%R) (grid_crimes data cell_lat cell_lon))
    by (apply Forall_filter_keep; exact Pos).
  assert (Sc : (0 < sum_weights (crimes_of_type config (grid_crimes data cell_lat cell_lon)))%R).
  { apply sum_weights_pos; [apply crimes_of_type_positive; exact PosRows | exact C]. }
  assert (L : (0 < sum_weights (crimes_of_type config (grid_crimes data cell_lat cell_lon))
                   / sum_weights (grid_crimes data cell_lat cell_lon) <= 1)%R).
  { apply quotient_in_unit; [exact Sc | apply crimes_of_type_sum_le; exact PosRows]. }
  assert (Sg : (sum_weights (crimes_of_type config (grid_crimes data cell_lat cell_lon))
                <= sum_weights (crimes_of_type config data))%R).
  { unfold grid_crimes. rewrite crimes_of_type_filter.
    apply sum_weights_filter_le. apply crimes_of_type_positive. exact Pos. }
  assert (Ne : data <> []).
  { intro E. apply C. rewrite E. unfold grid_crimes, crimes_of_type. simpl.
    destruct (time_filter config); reflexivity. }
  assert (W : (0 < citywide_rate data config <= 1)%R).
  { rewrite (citywide_rate_nonempty data config Ne).
    apply quotient_in_unit; [rlra | apply crimes_of_type_sum_le; exact Pos]. }
  split; [exact L|]. split; [exact W|].
  assert (E : relative_rate
                (sum_weights (crimes_of_type config (grid_crimes data cell_lat cell_lon))
                 / sum_weights (grid_crimes data cell_lat cell_lon))
                (citywide_rate data config)
              = (sum_weights (crimes_of_type config (grid_crimes data cell_lat cell_lon))
                 / sum_weights (grid_crimes data cell_lat cell_lon)
                 / citywide_rate data config)%R).
  { unfold relative_rate. destruct (Rlt_dec 0 (citywide_rate data config)) as [P | N];
      [reflexivity | exfalso; rlra]. }
  split; [exact E|]. rewrite E.
  set (l := (sum_weights (crimes_of_type config (grid_crimes data cell_lat cell_lon))
             / sum_weights (grid_crimes data cell_lat cell_lon))%R) in *.
  set (cw := citywide_rate data config) in *.
  pose proof (Rinv_0_lt_compat cw (proj1 W)) as Hi.
  assert (I1 : (1 <= / cw)%R).
  { rewrite <- Rinv_1. apply Rinv_le_contravar; [apply W | apply W]. }
  unfold Rdiv. split.
  - apply Rmult_lt_0_compat; [apply L | exact Hi].
  - rewrite <- (Rmult_1_r l) at 1. apply Rmult_le_compat_l; [left; apply L | exact I1].
Qed.

Lemma rate_bounds_witness :
  crimes_of_type (snd vehicle_entry)
    (grid_crimes (fst (process_crime_data 0 [boundary_raw]))
                 (fst sample_cell) (snd sample_cell)) <> [] /\
  (0 < citywide_rate (fst (process_crime_data 0 [boundary_raw])) (snd vehicle_entry) <= 1)%R.
Proof.
  split; [exact sample_cell_scored|].
  exact (proj1 (proj2 (rate_bounds 0 [boundary_raw] (fst sample_cell) (snd sample_cell)
                         (snd vehicle_entry) sample_cell_scored))).
Defined.

(** ** A cell that holds every record *)





(** ** What the trend can be *)




Section TrendOfFrame.
Variables (first : Crime) (rest : list Crime).
Hypothesis ages : forall c, In c (first :: rest) -> 0 <= days_ago c.

Let crimes := first :: rest.
Let total := List.length crimes.
Let recent := recent_count crimes.
Let d := or_1 (max_days_ago first rest).
Let trend := trend_of (recent_rate recent) (historical_rate total d).










End TrendOfFrame.




(** ** Identifiers and timestamps of the rows *)





(** ** A successful upload replaces the table *)











(** ** Fetching *)

Lemma attempts_all_failed {A : Type} (valid : A -> bool) (get : nat -> nat -> Response A)
    (n : nat) (st : FetchState A) :
  (forall k, (requests st <= k < requests st + n)%nat -> failed (get k (offset st)) = true) ->
  attempts valid get n st
  = inr (mkFetchState (all_data st) (offset st) (batch st) (requests st + n)).
Proof.
  revert st. induction n as [|n IH]; intros st H.
  - rewrite Nat.add_0_r. destruct st; reflexivity.
  - pose proof (H (requests st) ltac:(lia)) as F0.
    cbn [attempts].
    destruct (get (requests st) (offset st)) as [| |b h]; try discriminate F0.
    + destruct n as [|n'].
      * f_equal. f_equal. lia.
      * rewrite IH; cbn [all_data offset batch requests].
        -- f_equal. f_equal. lia.
        -- intros k Hk. apply H. lia.
    + destruct n as [|n'].
      * f_equal. f_equal. lia.
      * rewrite IH; cbn [all_data offset batch requests].
        -- f_equal. f_equal. lia.
        -- intros k Hk. apply H. lia.
Qed.

(** When the first three calls fail, the test after the retry loop reads
    [batch] before any assignment: the function raises instead of
    returning an empty list. *)
Theorem fetch_without_first_answer {A : Type} (valid : A -> bool)
    (get : nat -> nat -> Response A) (fuel : nat) :
  (forall k, (k < retries)%nat -> failed (get k 0%nat) = true) ->
  fetch_crime_data valid get (S fuel) = Some (Raised UnboundLocalError).
Proof.
  intro H. unfold fetch_crime_data. cbn [fetch_loop].
  rewrite attempts_all_failed.
  - reflexivity.
  - cbn [requests offset]. intros k Hk. apply H. lia.
Qed.

Lemma fetch_without_first_answer_witness :
  fetch_crime_data (fun _ : nat => true) down_server 1 = Some (Raised UnboundLocalError).
Proof.
  apply (fetch_without_first_answer (fun _ : nat => true) down_server 0).
  intros k _. reflexivity.
Defined.

(** Once a full page is in, a server that stops answering is asked again
    and again: no number of rounds ends the loop. *)
Lemma fetch_loop_stalls {A : Type} (valid : A -> bool) (get : nat -> nat -> Response A)
    (fuel : nat) (st : FetchState A) (b : list A) :
  batch st = Some b -> (limit <= List.length b)%nat ->
  (forall k off, (requests st <= k)%nat -> failed (get k off) = true) ->
  fetch_loop valid get fuel st = None.
Proof.
  revert st. induction fuel as [|fuel IH]; intros st Hb Hlen Hfail; [reflexivity|].
  cbn [fetch_loop]. rewrite attempts_all_failed.
  - cbn [batch all_data]. rewrite Hb.
    assert (E : is_empty b = false).
    { destruct b; [unfold limit in Hlen; simpl in Hlen; lia | reflexivity]. }
    rewrite E. simpl orb.
    destruct (Nat.ltb_spec (List.length b) limit) as [L | _]; [lia|].
    apply IH.
    + reflexivity.
    + exact Hlen.
    + cbn [requests]. intros k off Hk. apply Hfail. lia.
  - intros k Hk. apply Hfail. lia.
Qed.

Lemma attempts_first_page {A : Type} (valid : A -> bool) (get : nat -> nat -> Response A)
    (n : nat) (st : FetchState A) (b : list A) (h : Header) :
  get (requests st) (offset st) = Json b h -> b <> [] ->
  forallb valid b = true -> progress h = None ->
  attempts valid get (S n) st
  = inr (mkFetchState (all_data st ++ b)
           (if (List.length b <? limit)%nat then offset st
            else (offset st + List.length b)%nat)
           (Some b) (S (requests st))).
Proof.
  intros G Hne V P. cbn [attempts]. rewrite G.
  destruct b as [|x b]; [now elim Hne|].
  change (0 <? List.length (x :: b))%nat with true. cbv iota.
  rewrite V, P. simpl negb. cbv iota.
  destruct (List.length (x :: b) <? limit)%nat; reflexivity.
Qed.

(** A server that sends one full page and then fails every call keeps the
    function in its loop for ever. *)
Theorem fetch_never_gives_up {A : Type} (valid : A -> bool)
    (get : nat -> nat -> Response A) (page : list A) (h : Header) :
  get 0%nat 0%nat = Json page h -> (limit <= List.length page)%nat ->
  forallb valid page = true -> progress h = None ->
  (forall k off, (1 <= k)%nat -> failed (get k off) = true) ->
  forall fuel, fetch_crime_data valid get fuel = None.
Proof.
  intros G Hlen V P Hfail fuel. unfold fetch_crime_data.
  destruct fuel as [|fuel]; [reflexivity|].
  cbn [fetch_loop]. unfold retries.
  assert (Hne : page <> []).
  { intro E. rewrite E in Hlen. unfold limit in Hlen. simpl in Hlen. lia. }
  rewrite (attempts_first_page valid get 2 (mkFetchState [] 0 None 0) page h G Hne V P).
  cbn [batch all_data].
  assert (E : is_empty page = false) by (destruct page; [now elim Hne | reflexivity]).
  rewrite E. simpl orb.
  destruct (Nat.ltb_spec (List.length page) limit) as [L | _]; [lia|].
  apply (fetch_loop_stalls valid get fuel _ page).
  - reflexivity.
  - exact Hlen.
  - cbn [requests]. exact Hfail.
Qed.

Lemma fetch_never_gives_up_witness :
  fetch_crime_data (fun _ : nat => true) (one_page_server (repeat 0%nat limit)) 40 = None.
Proof.
  refine (fetch_never_gives_up (fun _ : nat => true)
            (one_page_server (repeat 0%nat limit)) (repeat 0%nat limit) NoHeader
            _ _ _ _ _ 40%nat).
  - reflexivity.
  - rewrite repeat_length. apply Nat.le_refl.
  - apply forallb_forall. intros x _. reflexivity.
  - reflexivity.
  - intros k off Hk. destruct k; [lia | reflexivity].
Defined.

(** Every record the function returns passed the check of its batch. *)
Lemma attempts_valid {A : Type} (valid : A -> bool) (get : nat -> nat -> Response A)
    (n : nat) (st st' : FetchState A) :
  forallb valid (all_data st) = true ->
  attempts valid get n st = inr st' -> forallb valid (all_data st') = true.
Proof.
  revert st. induction n as [|n IH]; intros st V E.
  - injection E as <-. exact V.
  - cbn [attempts] in E.
    destruct (get (requests st) (offset st)) as [| |b h].
    + destruct n as [|n'].
      * injection E as <-. exact V.
      * refine (IH _ _ E); exact V.
    + destruct n as [|n'].
      * injection E as <-. exact V.
      * refine (IH _ _ E); exact V.
    + destruct (0 <? List.length b)%nat.
      * destruct (forallb valid b) eqn:Vb; simpl negb in E; cbv iota in E.
        -- destruct (progress h); [discriminate E|].
           destruct (List.length b <? limit)%nat; injection E as <-;
             cbn [all_data]; rewrite forallb_app, V, Vb; reflexivity.
        -- refine (IH _ _ E); exact V.
      * injection E as <-. exact V.
Qed.

Lemma fetch_loop_valid {A : Type} (valid : A -> bool) (get : nat -> nat -> Response A)
    (fuel : nat) (st : FetchState A) (data : list A) :
  forallb valid (all_data st) = true ->
  fetch_loop valid get fuel st = Some (Returned data) -> forallb valid data = true.
Proof.
  revert st. induction fuel as [|fuel IH]; intros st V E; [discriminate E|].
  cbn [fetch_loop] in E.
  destruct (attempts valid get retries st) as [e|st'] eqn:T; [discriminate E|].
  pose proof (attempts_valid valid get retries st st' V T) as V'.
  destruct (batch st') as [b|]; [|discriminate E].
  destruct (is_empty b || (List.length b <? limit)%nat).
  - injection E as <-. exact V'.
  - exact (IH st' V' E).
Qed.

(** Whatever the server sends, the list the function returns holds only
    records that are dictionaries with a [date_occ] key. *)
Theorem fetched_records_checked {A : Type} (valid : A -> bool)
    (get : nat -> nat -> Response A) (fuel : nat) (data : list A) :
  fetch_crime_data valid get fuel = Some (Returned data) ->
  forallb valid data = true.
Proof.
  apply fetch_loop_valid. reflexivity.
Qed.

Lemma fetched_records_checked_witness :
  fetch_crime_data (Nat.eqb 1) (page_server [1; 1; 1]%nat) 1 = Some (Returned [1; 1; 1]%nat) /\
  forallb (Nat.eqb 1) [1; 1; 1]%nat = true.
Proof.
  assert (E : fetch_crime_data (Nat.eqb 1) (page_server [1; 1; 1]%nat) 1
              = Some (Returned [1; 1; 1]%nat)) by reflexivity.
  split; [exact E|].
  exact (fetched_records_checked (Nat.eqb 1) (page_server [1; 1; 1]%nat) 1 _ E).
Defined.

(** *** Paging through a data set *)

Lemma firstn_skipn_page {A : Type} (off : nat) (d : list A) :
  firstn off d ++ firstn limit (skipn off d) = firstn (off + limit) d.
Proof.
  rewrite <- (firstn_skipn off d) at 3.
  destruct (Nat.le_gt_cases off (List.length d)) as [L | G].
  - rewrite firstn_app, firstn_firstn, length_firstn.
    replace (Nat.min (off + limit) off) with off by lia.
    replace (off + limit - Nat.min off (List.length d))%nat with limit by lia.
    reflexivity.
  - rewrite skipn_all2 by lia. rewrite firstn_nil, !app_nil_r.
    rewrite !firstn_all2 by lia. reflexivity.
Qed.

Lemma forallb_firstn_skipn {A : Type} (valid : A -> bool) (d : list A) (n off : nat) :
  forallb valid d = true -> forallb valid (firstn n (skipn off d)) = true.
Proof.
  intro V. apply forallb_forall. intros x Hx.
  apply (proj1 (forallb_forall valid d) V).
  rewrite <- (firstn_skipn off d). apply in_or_app. right.
  rewrite <- (firstn_skipn n (skipn off d)). apply in_or_app. left. exact Hx.
Qed.

Lemma fetch_loop_pages {A : Type} (valid : A -> bool) (get : nat -> nat -> Response A)
    (dataset : list A) :
  serves dataset get -> forallb valid dataset = true ->
  forall fuel st,
    all_data st = firstn (offset st) dataset ->
    (offset st <= List.length dataset)%nat ->
    (List.length dataset < offset st + fuel * limit)%nat ->
    fetch_loop valid get fuel st = Some (Returned dataset).
Proof.
  intros Srv V. induction fuel as [|fuel IH]; intros st Hall Hoff Hfuel.
  - simpl in Hfuel. lia.
  - cbn [fetch_loop]. unfold retries.
    destruct (Srv (requests st) (offset st)) as (h & G & P).
    set (b := firstn limit (skipn (offset st) dataset)) in *.
    assert (Lb : List.length b = Nat.min limit (List.length dataset - offset st)).
    { unfold b. rewrite length_firstn, length_skipn. reflexivity. }
    assert (Vb : forallb valid b = true)
      by exact (forallb_firstn_skipn valid dataset limit (offset st) V).
    assert (Hdata : all_data st ++ b = firstn (offset st + limit) dataset).
    { rewrite Hall. apply firstn_skipn_page. }
    clearbody b. unfold limit in Lb, Hfuel.
    pose proof (Nat.min_spec 1000 (List.length dataset - offset st)) as Hmin.
    destruct (Nat.eq_dec (offset st) (List.length dataset)) as [End | More].
    + (* the page is empty: "No more data available" *)
      assert (Eb : b = []).
      { apply length_zero_iff_nil. rewrite Lb, End, Nat.sub_diag. apply Nat.min_0_r. }
      cbn [attempts]. rewrite G, Eb. simpl.
      rewrite Hall, End, firstn_all. reflexivity.
    + assert (Hne : b <> []).
      { intro Eb. rewrite Eb in Lb. cbn [List.length] in Lb. lia. }
      rewrite (attempts_first_page valid get 2 st b h G Hne Vb P).
      cbn [batch all_data].
      assert (E : is_empty b = false) by (destruct b; [now elim Hne | reflexivity]).
      rewrite E. simpl orb.
      destruct (Nat.ltb_spec (List.length b) limit) as [Short | Full]; unfold limit in *.
      * rewrite Hdata. rewrite firstn_all2 by lia. reflexivity.
      * assert (Len : List.length b = 1000%nat) by lia.
        apply IH; cbn [all_data offset].
        -- rewrite Len. exact Hdata.
        -- lia.
        -- unfold limit. lia.
Qed.

(** Against a server that holds a data set of checked records and answers
    every call with the page asked for, the function returns the whole
    data set, in order, once it has rounds for every page. *)
Theorem fetch_reassembles_dataset {A : Type} (valid : A -> bool)
    (get : nat -> nat -> Response A) (dataset : list A) (fuel : nat) :
  serves dataset get -> forallb valid dataset = true ->
  (List.length dataset < fuel * limit)%nat ->
  fetch_crime_data valid get fuel = Some (Returned dataset).
Proof.
  intros Srv V Hfuel. unfold fetch_crime_data.
  apply (fetch_loop_pages valid get dataset Srv V).
  - reflexivity.
  - cbn [offset]. lia.
  - cbn [offset]. lia.
Qed.

Lemma fetch_reassembles_dataset_witness :
  fetch_crime_data (fun _ : nat => true) (page_server (seq 0 2500)) 3
  = Some (Returned (seq 0 2500)).
Proof.
  apply (fetch_reassembles_dataset (fun _ : nat => true) (page_server (seq 0 2500))
           (seq 0 2500) 3).
  - intros k off. exists NoHeader. split; reflexivity.
  - apply forallb_forall. intros x _. reflexivity.
  - rewrite length_seq. unfold limit. lia.
Defined.

(** ** One row for each cell and metric type *)

Lemma NoDup_flat_map {A B : Type} (f : A -> list B) (l : list A) :
  NoDup l -> (forall x, In x l -> NoDup (f x)) ->
  (forall x y b, In x l -> In y l -> In b (f x) -> In b (f y) -> x = y) ->
  NoDup (flat_map f l).
Proof.
  induction 1 as [|x l Hx Hl IH]; intros Each Apart; cbn [flat_map]; [constructor|].
  apply NoDup_app.
  - apply Each. left. reflexivity.
  - apply IH.
    + intros y Hy. apply Each. right. exact Hy.
    + intros y z b Hy Hz. apply Apart; right; assumption.
  - intros b Hb Hb'. apply in_flat_map in Hb'. destruct Hb' as (y & Hy & Hby).
    assert (E : x = y).
    { apply (Apart x y b); [left; reflexivity | right; exact Hy | exact Hb | exact Hby]. }
    subst y. exact (Hx Hy).
Qed.

Lemma map_flat_map {A B C : Type} (g : B -> C) (f : A -> list B) (l : list A) :
  map g (flat_map f l) = flat_map (fun x => map g (f x)) l.
Proof.
  induction l as [|x l IH]; cbn [flat_map map]; [reflexivity|].
  rewrite map_app, IH. reflexivity.
Qed.

Lemma list_prod_NoDup {A B : Type} (l : list A) (l' : list B) :
  NoDup l -> NoDup l' -> NoDup (list_prod l l').
Proof.
  intros H H'. rewrite list_prod_as_flat_map. apply NoDup_flat_map.
  - exact H.
  - intros x _. apply NoDup_map_NoDup_ForallPairs; [|exact H'].
    intros a b _ _ E. injection E as E. exact E.
  - intros x y b _ _ Hx Hy.
    destruct (proj1 (in_map_iff _ _ _) Hx) as (u & Eu & _).
    destruct (proj1 (in_map_iff _ _ _) Hy) as (v & Ev & _).
    rewrite <- Ev in Eu. injection Eu as Exy _. exact Exy.
Qed.

Lemma arange_NoDup (start stop step : Q) :
  ~ step == 0 -> NoDup (arange start stop step).
Proof.
  intro S. unfold arange. apply NoDup_map_NoDup_ForallPairs; [|apply seq_NoDup].
  intros i j _ _ E.
  assert (Eq : start + inject_Z (Z.of_nat i) * step
               == start + inject_Z (Z.of_nat j) * step) by (rewrite E; reflexivity).
  assert (Ep : inject_Z (Z.of_nat i) * step == inject_Z (Z.of_nat j) * step).
  { set (p := inject_Z (Z.of_nat i) * step) in *.
    set (q := inject_Z (Z.of_nat j) * step) in *. qlra. }
  apply Qmult_inj_r in Ep; [|exact S].
  apply (proj1 (inject_Z_injective _ _)) in Ep. apply Nat2Z.inj in Ep. exact Ep.
Qed.

Lemma grid_NoDup : NoDup (list_prod lats lons).
Proof.
  apply list_prod_NoDup; apply arange_NoDup; intro E; discriminate E.
Qed.

Lemma SAFETY_METRICS_NoDup : NoDup SAFETY_METRICS.
Proof.
  apply (NoDup_map_inv fst). unfold SAFETY_METRICS. cbn [map fst].
  repeat (constructor; [cbn [In]; intros H; repeat (destruct H as [H | H]; [discriminate H|]);
                        exact H|]).
  constructor.
Qed.

Lemma row_key_erase (m : Metric) : row_key (erase m) = row_key m.
Proof.
  unfold row_key. rewrite !getitem_erase by reflexivity. reflexivity.
Qed.

Lemma row_key_is_metric_for (cell : Q * Q) (metric_type : string) (m : Metric) :
  is_metric_for cell metric_type m ->
  row_key m = (Some (VFloat (fst cell + 0.005)), Some (VFloat (snd cell + 0.005)),
               Some (VStr metric_type)).
Proof.
  intros (H1 & H2 & H3). unfold row_key. rewrite H1, H2, H3. reflexivity.
Qed.

Lemma entry_keys (rates : list (string * R)) (cell : Q * Q) (rows : list Crime)
    (entry : string * Config) (key : option Value * option Value * option Value) :
  In key (map row_key
            (opt_list (option_map erase
               (metric_row null_world 0 rates (fst cell) (snd cell) rows entry)))) ->
  key = (Some (VFloat (fst cell + 0.005)), Some (VFloat (snd cell + 0.005)),
         Some (VStr (fst entry))).
Proof.
  destruct (metric_row null_world 0 rates (fst cell) (snd cell) rows entry) as [m|] eqn:R;
    cbn [option_map opt_list map In]; intro H; [|destruct H].
  destruct H as [<- | H]; [|destruct H].
  rewrite row_key_erase. apply row_key_is_metric_for.
  rewrite (surjective_pairing cell) at 1.
  exact (metric_row_is_metric_for _ _ _ _ _ _ _ _ R).
Qed.

Lemma cell_content_keys (crime_data : list Crime) (rates : list (string * R))
    (cell : Q * Q) (key : option Value * option Value * option Value) :
  In key (map row_key (cell_content crime_data rates cell)) ->
  exists entry, In entry SAFETY_METRICS /\
    key = (Some (VFloat (fst cell + 0.005)), Some (VFloat (snd cell + 0.005)),
           Some (VStr (fst entry))).
Proof.
  unfold cell_content.
  destruct (is_empty (grid_crimes crime_data (fst cell) (snd cell))); [intros []|].
  rewrite map_flat_map. intro H. apply in_flat_map in H. destruct H as (entry & He & Hk).
  exists entry. split; [exact He|]. exact (entry_keys _ _ _ _ _ Hk).
Qed.

Lemma cell_content_NoDup (crime_data : list Crime) (rates : list (string * R))
    (cell : Q * Q) :
  NoDup (map row_key (cell_content crime_data rates cell)).
Proof.
  unfold cell_content.
  destruct (is_empty (grid_crimes crime_data (fst cell) (snd cell))); [constructor|].
  rewrite map_flat_map. apply NoDup_flat_map.
  - exact SAFETY_METRICS_NoDup.
  - intros entry _.
    destruct (metric_row null_world 0 rates (fst cell) (snd cell)
                (grid_crimes crime_data (fst cell) (snd cell)) entry);
      cbn [option_map opt_list map]; [|constructor].
    constructor; [intro H; destruct H | constructor].
  - intros e1 e2 key H1 H2 K1 K2.
    apply entry_keys in K1, K2. rewrite K1 in K2. injection K2 as K2.
    exact (metric_types_distinct e1 e2 H1 H2 K2).
Qed.

(** No two rows of a run are about the same cell and the same metric type:
    the centre coordinates and the metric type tell every row apart. *)
Theorem one_row_per_cell_and_type (w : World) (crime_data : list Crime) :
  NoDup (map row_key (calculate_safety_metrics w crime_data)).
Proof.
  assert (E : map row_key (calculate_safety_metrics w crime_data)
              = map row_key (map erase (calculate_safety_metrics w crime_data))).
  { rewrite map_map. apply map_ext. intro m. symmetry. apply row_key_erase. }
  rewrite E, calculate_safety_metrics_erased, map_flat_map.
  apply NoDup_flat_map.
  - exact grid_NoDup.
  - intros cell _. apply cell_content_NoDup.
  - intros [la lo] [la' lo'] key Hc Hc' K K'.
    destruct (proj1 (in_prod_iff _ _ _ _) Hc) as [Hla Hlo].
    destruct (proj1 (in_prod_iff _ _ _ _) Hc') as [Hla' Hlo'].
    destruct (cell_content_keys _ _ _ _ K) as (e & _ & Ek).
    destruct (cell_content_keys _ _ _ _ K') as (e' & _ & Ek').
    rewrite Ek in Ek'. cbn [fst snd] in Ek'.
    pose proof (some_vfloat_inj _ _ (f_equal (fun k => fst (fst k)) Ek')) as E1.
    pose proof (some_vfloat_inj _ _ (f_equal (fun k => snd (fst k)) Ek')) as E2.
    cbn [fst snd] in E1, E2.
    rewrite (lat_center_inj la' la Hla' Hla E1), (lon_center_inj lo' lo Hlo' Hlo E2).
    reflexivity.
Qed.

(** ** How many cells hold a record *)







